(** * Bleu_rouge_scores.py: the BLEU / ROUGE evaluation script

    A shallow embedding of [Evaluate_text] and of the module-level script
    that calls it once (src/Bleu Score/Bleu_rouge_scores.py).

    The two metric libraries ([torchmetrics.text.BLEUScore] and
    [rouge.Rouge]) are not part of the repository: the embedding takes
    the two scorers as parameters and records every call made to them,
    and every write to standard output, in a trace.  Where a property is
    about the scores themselves, the ROUGE scorer is the one the
    specification describes. *)

From Stdlib Require Import String Ascii List Bool Arith Lia DecimalString.
From Stdlib Require Import QArith.
Close Scope Q_scope.
Import ListNotations.
Open Scope string_scope.
Open Scope list_scope.

(** ** The Python values the script handles *)

Module Py.

Local Open Scope string_scope.

(** A [str] is modelled as the sequence of its code points, all of them
    below 256; a [list] as the list of its items. *)
#[warnings="-register-all"]
Inductive value : Type :=
| Str (s : string)
| List (items : list value).

(** [sep.join(xs)] *)
Fixpoint join (sep : string) (xs : list string) : string :=
  match xs with
  | [] => EmptyString
  | x :: rest =>
      match rest with
      | [] => x
      | _ :: _ => x ++ sep ++ join sep rest
      end
  end.

Definition squote : ascii := ascii_of_nat 39.
Definition dquote : ascii := ascii_of_nat 34.
Definition backslash : ascii := ascii_of_nat 92.
Definition newline : string := String (ascii_of_nat 10) EmptyString.

Definition contains (c : ascii) (s : string) : bool :=
  existsb (Ascii.eqb c) (list_ascii_of_string s).

(** [str.isprintable] on one code point below 256: the control characters
    (0x00-0x1f, 0x7f-0x9f), the no-break space 0xa0 and the soft hyphen
    0xad are not printable; the ASCII space is. *)
Definition isprintable (c : ascii) : bool :=
  let n := nat_of_ascii c in
  ((32 <=? n) && negb ((127 <=? n) && (n <=? 160)) && negb (n =? 173))%nat.

Definition hex_digit (n : nat) : ascii :=
  if (n <? 10)%nat then ascii_of_nat (48 + n) else ascii_of_nat (87 + n).

(** The escape [\xhh] of a code point below 256. *)
Definition hex_escape (c : ascii) : string :=
  let n := nat_of_ascii c in
  String backslash
    (String "x" (String (hex_digit (n / 16))
                   (String (hex_digit (n mod 16)) EmptyString))).

(** One character of [repr(s)], inside the quotes [quote]. *)
Definition repr_char (quote c : ascii) : string :=
  if Ascii.eqb c quote || Ascii.eqb c backslash
  then String backslash (String c EmptyString)
  else if Ascii.eqb c (ascii_of_nat 9) then String backslash "t"
  else if Ascii.eqb c (ascii_of_nat 10) then String backslash "n"
  else if Ascii.eqb c (ascii_of_nat 13) then String backslash "r"
  else if isprintable c then String c EmptyString
  else hex_escape c.

Fixpoint repr_chars (quote : ascii) (s : string) : string :=
  match s with
  | EmptyString => EmptyString
  | String c rest => repr_char quote c ++ repr_chars quote rest
  end.

(** The quote character [repr] picks: a double quote when the string has a
    single quote and no double quote, a single quote otherwise. *)
Definition repr_quote (s : string) : ascii :=
  if contains squote s && negb (contains dquote s) then dquote else squote.

(** [repr(s)] of a [str]. *)
Definition repr_str (s : string) : string :=
  let q := repr_quote s in
  String q (repr_chars q s ++ String q EmptyString).

(** [repr(v)]; a list prints as its items' [repr], separated by a comma
    and a space, between square brackets. *)
Fixpoint repr (v : value) : string :=
  match v with
  | Str s => repr_str s
  | List items => "[" ++ join ", " (map repr items) ++ "]"
  end.

(** [str(v)]: a [str] is left as it is, a list prints as its [repr]. *)
Definition str (v : value) : string :=
  match v with
  | Str s => s
  | List _ => repr v
  end.

End Py.

(** ** Outcomes, traces and the monad of the script *)

(** How a call ends: with a value, with a raised exception, or not at all. *)
Inductive outcome (E A : Type) : Type :=
| Returned (a : A)
| Raised (e : E)
| Diverged.

Arguments Returned {E A} a.
Arguments Raised {E A} e.
Arguments Diverged {E A}.

(** What the script does to the outside: the two scoring calls and the
    writes to standard output. *)
Inductive event : Type :=
| EvRouge (hyps refs : string)
| EvBleu (preds target : list Py.value)
| EvWrite (text : string).

Definition world : Type := list event.

(** A computation takes the trace so far and gives the extended trace and
    its outcome. *)
Definition M (E A : Type) : Type := world -> world * outcome E A.

Definition ret {E A : Type} (a : A) : M E A := fun w => (w, Returned a).

Definition bind {E A B : Type} (m : M E A) (k : A -> M E B) : M E B :=
  fun w =>
    match m w with
    | (w', Returned a) => k a w'
    | (w', Raised e) => (w', Raised e)
    | (w', Diverged) => (w', Diverged)
    end.

Notation "x <- m ;; k" := (bind m (fun x => k))
  (at level 61, m at next level, right associativity).
Notation "m ;;; k" := (bind m (fun _ => k))
  (at level 61, right associativity).

(** The text standard output holds after a trace. *)
Fixpoint stdout (w : world) : string :=
  match w with
  | [] => EmptyString
  | EvWrite text :: rest => (text ++ stdout rest)%string
  | _ :: rest => stdout rest
  end.

Definition is_write (e : event) : bool :=
  match e with EvWrite _ => true | _ => false end.

Definition is_bleu (e : event) : bool :=
  match e with EvBleu _ _ => true | _ => false end.

Definition is_rouge (e : event) : bool :=
  match e with EvRouge _ _ => true | _ => false end.

(** ** The two metric libraries *)

(** What the script imports from [torchmetrics.text] and [rouge]: the
    exceptions the libraries raise, the tensor [BLEUScore] returns, the list
    of dictionaries [Rouge.get_scores] returns, the scorer objects with
    their default constructors, the two scoring calls and [str] of the two
    results, as [print] shows them.  A scoring call is a function of the
    freshly built scorer and of its arguments. *)
Class Libraries : Type := {
  exn : Type;
  bleu_t : Type;
  rouge_t : Type;
  BleuObj : Type;
  RougeObj : Type;
  BLEUScore : BleuObj;
  Rouge : RougeObj;
  bleu_forward :
    BleuObj -> list Py.value -> list Py.value -> outcome exn bleu_t;
  get_scores : RougeObj -> string -> string -> outcome exn rouge_t;
  str_bleu : bleu_t -> string;
  str_rouge : rouge_t -> string
}.

(** ** The script *)

Section Script.

Context {L : Libraries}.

Definition call_get_scores (rouge : RougeObj) (hyps refs : string)
  : M exn rouge_t :=
  fun w => (w ++ [EvRouge hyps refs], get_scores rouge hyps refs).

Definition call_bleu (bleu : BleuObj) (preds target : list Py.value)
  : M exn bleu_t :=
  fun w => (w ++ [EvBleu preds target], bleu_forward bleu preds target).

(** [print] of one or more arguments: their texts separated by a space,
    then a newline. *)
Definition print (args : list string) : M exn unit :=
  fun w => (w ++ [EvWrite (Py.join " " args ++ Py.newline)%string], Returned tt).

Definition Evaluate_text (pred target_ref : list Py.value)
  : M exn (bleu_t * rouge_t) :=
  let bleu := BLEUScore in
  let rouge := Rouge in
  let str_pred := Py.join " " (map Py.str pred) in
  let str_target := Py.join " " (map Py.str target_ref) in
  rouge_score <- call_get_scores rouge str_pred str_target ;;
  bleu_score <- call_bleu bleu pred target_ref ;;
  print ["Bleu score : "; str_bleu bleu_score] ;;;
  print ["Rouge score : "] ;;;
  print [str_rouge rouge_score] ;;;
  ret (bleu_score, rouge_score).

Definition preds : list Py.value := [Py.Str "the cat is on the mat"].

Definition target : list Py.value :=
  [Py.List [Py.Str "there is a cat on the mat"; Py.Str "a cat is on the mat"]].

(** The module body after the imports and the [def]: two assignments and
    the call, whose value is dropped. *)
Definition main : M exn unit :=
  Evaluate_text preds target ;;; ret tt.

(** The events a computation adds to the trace [w], and how it ends. *)
Definition produced {A : Type} (m : M exn A) (w : world) : list event :=
  skipn (length w) (fst (m w)).

Definition result {A : Type} (m : M exn A) (w : world) : outcome exn A :=
  snd (m w).

Definition terminates {A : Type} (o : outcome exn A) : Prop :=
  match o with
  | Diverged => False
  | _ => True
  end.

(** The events of a call of [Evaluate_text], by the outcomes of the two
    scorers. *)
Definition Evaluate_text_events (pred target_ref : list Py.value)
  : list event :=
  let str_pred := Py.join " " (map Py.str pred) in
  let str_target := Py.join " " (map Py.str target_ref) in
  EvRouge str_pred str_target ::
  match get_scores Rouge str_pred str_target with
  | Returned rouge_score =>
      EvBleu pred target_ref ::
      match bleu_forward BLEUScore pred target_ref with
      | Returned bleu_score =>
          [EvWrite ("Bleu score : " ++ " " ++ str_bleu bleu_score
                    ++ Py.newline)%string;
           EvWrite ("Rouge score : " ++ Py.newline)%string;
           EvWrite (str_rouge rouge_score ++ Py.newline)%string]
      | _ => []
      end
  | _ => []
  end.

Definition Evaluate_text_result (pred target_ref : list Py.value)
  : outcome exn (bleu_t * rouge_t) :=
  match get_scores Rouge (Py.join " " (map Py.str pred))
          (Py.join " " (map Py.str target_ref)) with
  | Returned rouge_score =>
      match bleu_forward BLEUScore pred target_ref with
      | Returned bleu_score => Returned (bleu_score, rouge_score)
      | Raised e => Raised e
      | Diverged => Diverged
      end
  | Raised e => Raised e
  | Diverged => Diverged
  end.

(** The two sections of the output: the BLEU label and value on one line;
    the ROUGE label on a line and the value on the next. *)
Definition bleu_section (bleu_score : bleu_t) : string :=
  ("Bleu score : " ++ " " ++ str_bleu bleu_score ++ Py.newline)%string.

Definition rouge_section (rouge_score : rouge_t) : string :=
  ("Rouge score : " ++ Py.newline ++ str_rouge rouge_score ++ Py.newline)%string.

End Script.

(** ** The reference string as the specification words it *)

(** The tokens of a reference: a [str] is one token, a list holds the
    tokens of its items. *)
Fixpoint tokens (v : Py.value) : list string :=
  match v with
  | Py.Str s => [s]
  | Py.List items => flat_map tokens items
  end.

(** The references' tokens joined by a space. *)
Definition joined_reference_tokens (target_ref : list Py.value) : string :=
  Py.join " " (flat_map tokens target_ref).

(** The tokens of a string: its pieces between single spaces, as
    [s.split(' ')] gives them. *)
Fixpoint words (s : string) : list string :=
  match s with
  | EmptyString => [EmptyString]
  | String c rest =>
      if Ascii.eqb c " "%char then EmptyString :: words rest
      else
        match words rest with
        | [] => [String c EmptyString]
        | word :: others => String c word :: others
        end
  end.

(** Whether a reference of the collection is a list of strings, as
    [BLEUScore] documents its targets, and not a bare [str]. *)
Definition is_list (v : Py.value) : bool :=
  match v with
  | Py.List _ => true
  | Py.Str _ => false
  end.

(** Every token and a separator after it: a bound on the length of
    [joined_reference_tokens]. *)
Definition weight (ts : list string) : nat :=
  list_sum (map (fun s => S (String.length s)) ts).

(** A token that is a [str] without a space in it. *)
Definition space_free_token (v : Py.value) : bool :=
  match v with
  | Py.Str s => negb (Py.contains " "%char s)
  | Py.List _ => false
  end.

(** Whether every character of a string passes a test. *)
Fixpoint all_chars (test : ascii -> bool) (s : string) : bool :=
  match s with
  | EmptyString => true
  | String c rest => test c && all_chars test rest
  end.

(** ** The ROUGE scorer, from the specification *)

(** Modelled from the spec: one level of the score structure of the ROUGE
    scorer ([rouge.Rouge], not part of the repository): the specification
    has it report precision, recall and F1. *)
Record prf : Type := {
  precision : Q;
  recall : Q;
  f1 : Q
}.

(** Modelled from the spec: the score structure of the ROUGE scorer
    ([rouge.Rouge], not part of the repository), a mapping from the levels
    of the metric to precision, recall and F1; the unigram level is the one
    modelled. *)
Record rouge_scores : Type := {
  rouge_1 : prf
}.

(** The tokens of a list, each kept once. *)
Fixpoint distinct (ts : list string) : list string :=
  match ts with
  | [] => []
  | t :: rest =>
      if existsb (String.eqb t) rest then distinct rest
      else t :: distinct rest
  end.

Definition ratio (n m : nat) : Q :=
  (inject_Z (Z.of_nat n) / inject_Z (Z.of_nat m))%Q.

(** Modelled from the spec: the unigram overlap of the ROUGE scorer
    ([rouge.Rouge], not part of the repository).  The tokens of the two
    strings are their pieces between spaces; the overlap counts the tokens
    of the hypothesis that are tokens of the reference; precision is the
    overlap over the tokens of the hypothesis, recall the overlap over the
    tokens of the reference, each token counted once, and F1 is their
    harmonic mean, 0 where both are 0. *)
Definition unigram_scores (hyps refs : string) : prf :=
  let hyp_tokens := distinct (words hyps) in
  let ref_tokens := distinct (words refs) in
  let overlap :=
    length (filter (fun t => existsb (String.eqb t) ref_tokens) hyp_tokens) in
  let p := ratio overlap (length hyp_tokens) in
  let r := ratio overlap (length ref_tokens) in
  {| precision := p;
     recall := r;
     f1 := if Qeq_bool (p + r) 0 then 0%Q else (2 * p * r / (p + r))%Q |}.

Section SpecRouge.

(** The exceptions of the libraries, with the two the ROUGE scorer raises;
    the BLEU scorer, which stays a parameter; and [str] of the ROUGE
    scores. *)
Variable E : Type.
Variables hypothesis_is_empty reference_is_empty : E.
Variables bleu_value bleu_object : Type.
Variable bleu_scorer : bleu_object.
Variable bleu_call :
  bleu_object -> list Py.value -> list Py.value -> outcome E bleu_value.
Variable show_bleu : bleu_value -> string.
Variable show_rouge : rouge_scores -> string.

(** Modelled from the spec: [get_scores] of the ROUGE scorer ([rouge.Rouge],
    not part of the repository).  The specification has an empty prediction
    and an empty reference fail inside the metric library, and the scorer
    otherwise report precision, recall and F1 of the overlap. *)
Definition spec_get_scores (_ : unit) (hyps refs : string)
  : outcome E rouge_scores :=
  if String.eqb hyps EmptyString then Raised hypothesis_is_empty
  else if String.eqb refs EmptyString then Raised reference_is_empty
  else Returned {| rouge_1 := unigram_scores hyps refs |}.

(** The libraries with this ROUGE scorer. *)
Definition libraries_with_spec_rouge : Libraries := {|
  exn := E;
  bleu_t := bleu_value;
  rouge_t := rouge_scores;
  BleuObj := bleu_object;
  RougeObj := unit;
  BLEUScore := bleu_scorer;
  Rouge := tt;
  bleu_forward := bleu_call;
  get_scores := spec_get_scores;
  str_bleu := show_bleu;
  str_rouge := show_rouge
|}.

End SpecRouge.

(** ** An instance of the libraries, to run the script on inputs *)

Module Sample.

Definition show_nat (n : nat) : string :=
  NilZero.string_of_uint (Nat.to_uint n).

(** [get_scores] refuses an empty hypothesis and otherwise returns the two
    lengths; [bleu_forward] refuses two corpora of different sizes and
    otherwise returns the size. *)
Definition sample_get_scores (_ : unit) (hyps refs : string)
  : outcome string (nat * nat) :=
  if String.eqb hyps EmptyString then Raised "Hypothesis is empty."
  else Returned (String.length hyps, String.length refs).

Definition sample_bleu_forward (_ : unit) (preds target : list Py.value)
  : outcome string nat :=
  if (length preds =? length target)%nat then Returned (length preds)
  else Raised "Corpus has different size".

Definition libs : Libraries := {|
  exn := string;
  bleu_t := nat;
  rouge_t := nat * nat;
  BleuObj := unit;
  RougeObj := unit;
  BLEUScore := tt;
  Rouge := tt;
  bleu_forward := sample_bleu_forward;
  get_scores := sample_get_scores;
  str_bleu := show_nat;
  str_rouge := fun p => (show_nat (fst p) ++ " " ++ show_nat (snd p))%string
|}.

End Sample.

(** The sample BLEU scorer beside the ROUGE scorer of the specification. *)
Module SampleWithSpecRouge.

Definition show_ratio (q : Q) : string :=
  (NilZero.string_of_int (Z.to_int (Qnum q)) ++ "/"
   ++ NilZero.string_of_uint (Pos.to_uint (Qden q)))%string.

Definition show_scores (scores : rouge_scores) : string :=
  (show_ratio (precision (rouge_1 scores)) ++ " "
   ++ show_ratio (recall (rouge_1 scores)) ++ " "
   ++ show_ratio (f1 (rouge_1 scores)))%string.

Definition libs : Libraries :=
  libraries_with_spec_rouge string "Hypothesis is empty."%string
    "Reference is empty."%string nat unit tt Sample.sample_bleu_forward
    Sample.show_nat show_scores.

End SampleWithSpecRouge.

(** ** Lengths of the strings [join] and [repr] build *)

Section StringLengths.

Local Open Scope string_scope.

Lemma append_assoc (s1 s2 s3 : string) :
  (s1 ++ s2) ++ s3 = s1 ++ (s2 ++ s3).
Proof.
  induction s1 as [| c s1 IH]; simpl; [reflexivity | now rewrite IH].
Qed.

Lemma append_nil_r (s : string) : s ++ EmptyString = s.
Proof.
  induction s as [| c s IH]; simpl; [reflexivity | now rewrite IH].
Qed.

Lemma length_append (s1 s2 : string) :
  String.length (s1 ++ s2) = String.length s1 + String.length s2.
Proof.
  induction s1 as [| c s1 IH]; simpl; [reflexivity | now rewrite IH].
Qed.

Lemma weight_app (ts1 ts2 : list string) :
  weight (ts1 ++ ts2) = weight ts1 + weight ts2.
Proof.
  unfold weight. rewrite map_app, list_sum_app. reflexivity.
Qed.

Lemma join_length_le_weight (ts : list string) :
  String.length (Py.join " " ts) <= weight ts.
Proof.
  induction ts as [| t ts IH]; [apply Nat.le_refl |].
  destruct ts as [| t' ts].
  - unfold weight. simpl. lia.
  - change (Py.join " " (t :: t' :: ts))
      with (t ++ " " ++ Py.join " " (t' :: ts)).
    change (weight (t :: t' :: ts))
      with (S (String.length t) + weight (t' :: ts)).
    rewrite !length_append. change (String.length " ") with 1. lia.
Qed.

Lemma weight_le_join_length (ts : list string) :
  weight ts <= S (String.length (Py.join " " ts)).
Proof.
  induction ts as [| t ts IH]; [unfold weight; simpl; lia |].
  destruct ts as [| t' ts].
  - unfold weight. simpl. lia.
  - change (Py.join " " (t :: t' :: ts))
      with (t ++ " " ++ Py.join " " (t' :: ts)).
    change (weight (t :: t' :: ts))
      with (S (String.length t) + weight (t' :: ts)).
    rewrite !length_append. change (String.length " ") with 1. lia.
Qed.

Lemma join_length_ge_sum (sep : string) (xs : list string) :
  list_sum (map String.length xs) <= String.length (Py.join sep xs).
Proof.
  induction xs as [| x xs IH]; [apply Nat.le_refl |].
  destruct xs as [| x' xs].
  - simpl. lia.
  - change (Py.join sep (x :: x' :: xs))
      with (x ++ sep ++ Py.join sep (x' :: xs)).
    change (list_sum (map String.length (x :: x' :: xs)))
      with (String.length x + list_sum (map String.length (x' :: xs))).
    rewrite !length_append. lia.
Qed.

Lemma repr_char_length (quote c : ascii) :
  1 <= String.length (Py.repr_char quote c).
Proof.
  unfold Py.repr_char, Py.hex_escape.
  repeat match goal with
         | |- context [if ?b then _ else _] => destruct b
         end; simpl; lia.
Qed.

Lemma repr_chars_length (quote : ascii) (s : string) :
  String.length s <= String.length (Py.repr_chars quote s).
Proof.
  induction s as [| c s IH]; simpl; [apply Nat.le_refl |].
  rewrite length_append. pose proof (repr_char_length quote c). lia.
Qed.

Lemma repr_str_length (s : string) :
  String.length s + 2 <= String.length (Py.repr_str s).
Proof.
  unfold Py.repr_str. simpl. rewrite length_append. simpl.
  pose proof (repr_chars_length (Py.repr_quote s) s). lia.
Qed.

(** [repr] of a value is longer than its tokens with a separator each. *)
Lemma repr_length (v : Py.value) :
  weight (tokens v) + 1 <= String.length (Py.repr v).
Proof.
  revert v.
  fix IH 1. intros [s | items].
  - cbn [tokens Py.repr]. unfold weight. cbn [map list_sum fold_right].
    pose proof (repr_str_length s). lia.
  - cbn [tokens Py.repr]. rewrite !length_append.
    change (String.length "[") with 1. change (String.length "]") with 1.
    pose proof (join_length_ge_sum ", " (map Py.repr items)) as Hjoin.
    assert (Hsum : weight (flat_map tokens items) + length items
                   <= list_sum (map String.length (map Py.repr items))).
    { clear Hjoin. induction items as [| v items IHitems];
        [apply Nat.le_refl |].
      cbn [flat_map map list_sum fold_right length]. rewrite weight_app.
      unfold list_sum in IHitems. pose proof (IH v). lia. }
    lia.
Qed.

Lemma str_length (v : Py.value) :
  weight (tokens v) + (if is_list v then 2 else 0)
  <= S (String.length (Py.str v)).
Proof.
  destruct v as [s | items].
  - cbn [tokens is_list Py.str]. unfold weight. cbn [map list_sum fold_right]. lia.
  - pose proof (repr_length (Py.List items)) as H.
    cbn [is_list Py.str]. lia.
Qed.

Lemma strs_weight (vs : list Py.value) :
  weight (flat_map tokens vs) + (if existsb is_list vs then 2 else 0)
  <= weight (map Py.str vs).
Proof.
  induction vs as [| v vs IH]; [apply Nat.le_refl |].
  cbn [flat_map map existsb]. rewrite weight_app.
  change (weight (Py.str v :: map Py.str vs))
    with (S (String.length (Py.str v)) + weight (map Py.str vs)).
  pose proof (str_length v) as Hv.
  destruct (is_list v), (existsb is_list vs); simpl orb; cbv iota; lia.
Qed.

(** Where a reference of the collection is a list, the string built from
    the collection is strictly longer than its tokens joined by a space. *)
Lemma nested_reference_string_longer (target_ref : list Py.value) :
  existsb is_list target_ref = true ->
  String.length (joined_reference_tokens target_ref)
  < String.length (Py.join " " (map Py.str target_ref)).
Proof.
  intros Hlist. unfold joined_reference_tokens.
  pose proof (join_length_le_weight (flat_map tokens target_ref)) as H1.
  pose proof (strs_weight target_ref) as H2. rewrite Hlist in H2.
  pose proof (weight_le_join_length (map Py.str target_ref)) as H3.
  lia.
Qed.

(** Where every reference is a [str], the two strings agree. *)
Lemma flat_reference_string (target_ref : list Py.value) :
  existsb is_list target_ref = false ->
  Py.join " " (map Py.str target_ref) = joined_reference_tokens target_ref.
Proof.
  intros Hflat. unfold joined_reference_tokens. f_equal.
  induction target_ref as [| v vs IH]; [reflexivity |].
  cbn [existsb] in Hflat. apply orb_false_iff in Hflat as [Hv Hvs].
  destruct v as [s | items]; [| discriminate].
  simpl. f_equal. exact (IH Hvs).
Qed.

End StringLengths.

(** ** Properties of the script *)

Section ScriptProperties.

Context {L : Libraries}.

Lemma Evaluate_text_run (pred target_ref : list Py.value) (w : world) :
  Evaluate_text pred target_ref w
  = (w ++ Evaluate_text_events pred target_ref,
     Evaluate_text_result pred target_ref).
Proof.
  unfold Evaluate_text, Evaluate_text_events, Evaluate_text_result.
  unfold bind, call_get_scores, call_bleu, print, ret.
  destruct (get_scores Rouge _ _) as [rouge_score | e | ].
  - destruct (bleu_forward BLEUScore pred target_ref) as [bleu_score | e | ].
    + cbn [Py.join]. repeat rewrite <- app_assoc. reflexivity.
    + rewrite <- app_assoc. reflexivity.
    + rewrite <- app_assoc. reflexivity.
  - reflexivity.
  - reflexivity.
Qed.

Lemma skipn_length_app (w l : list event) : skipn (length w) (w ++ l) = l.
Proof.
  induction w as [| e w IH]; simpl; [reflexivity | exact IH].
Qed.

Lemma Evaluate_text_produced (pred target_ref : list Py.value) (w : world) :
  produced (Evaluate_text pred target_ref) w
  = Evaluate_text_events pred target_ref.
Proof.
  unfold produced. rewrite Evaluate_text_run. simpl.
  apply skipn_length_app.
Qed.

Lemma Evaluate_text_outcome (pred target_ref : list Py.value) (w : world) :
  result (Evaluate_text pred target_ref) w
  = Evaluate_text_result pred target_ref.
Proof.
  unfold result. rewrite Evaluate_text_run. reflexivity.
Qed.

Lemma main_run (w : world) :
  main w
  = (w ++ Evaluate_text_events preds target,
     match Evaluate_text_result preds target with
     | Returned _ => Returned tt
     | Raised e => Raised e
     | Diverged => Diverged
     end).
Proof.
  unfold main, bind. rewrite Evaluate_text_run.
  destruct (Evaluate_text_result preds target); reflexivity.
Qed.

Lemma main_produced (w : world) :
  produced main w = Evaluate_text_events preds target.
Proof.
  unfold produced. rewrite main_run. simpl. apply skipn_length_app.
Qed.

Lemma main_outcome (w : world) :
  result main w
  = match Evaluate_text_result preds target with
    | Returned _ => Returned tt
    | Raised e => Raised e
    | Diverged => Diverged
    end.
Proof.
  unfold result. rewrite main_run. reflexivity.
Qed.

Lemma stdout_app (w1 w2 : world) :
  stdout (w1 ++ w2) = (stdout w1 ++ stdout w2)%string.
Proof.
  induction w1 as [| e w1 IH]; simpl; [reflexivity |].
  destruct e; simpl; rewrite IH; try reflexivity.
  symmetry. apply append_assoc.
Qed.

(** *** What the ROUGE scorer receives *)

(** C1 (the code departs from the claim): on the script's own input the
    reference string handed to the ROUGE scorer is the printed form of the
    inner list of references, with its brackets, quotes and comma; it is not
    the references' tokens joined by a space. *)
Theorem C1_rouge_reference_is_list_repr (w : world) :
  exists rest,
    produced (Evaluate_text preds target) w
    = EvRouge "the cat is on the mat"
        "['there is a cat on the mat', 'a cat is on the mat']" :: rest
    /\ joined_reference_tokens target
       = "there is a cat on the mat a cat is on the mat"
    /\ Py.join " " (map Py.str target) <> joined_reference_tokens target.
Proof.
  rewrite Evaluate_text_produced. unfold Evaluate_text_events.
  eexists. split; [reflexivity |].
  split; [reflexivity | discriminate].
Qed.

(** The same at every input: the first event of a call is the ROUGE call
    on the two joined strings. *)
Lemma Evaluate_text_first_event (pred target_ref : list Py.value) (w : world) :
  exists rest,
    produced (Evaluate_text pred target_ref) w
    = EvRouge (Py.join " " (map Py.str pred))
        (Py.join " " (map Py.str target_ref)) :: rest
    /\ forallb (fun e => negb (is_rouge e)) rest = true.
Proof.
  rewrite Evaluate_text_produced. unfold Evaluate_text_events.
  eexists. split; [reflexivity |].
  destruct (get_scores Rouge _ _); [| reflexivity | reflexivity].
  destruct (bleu_forward BLEUScore _ _); reflexivity.
Qed.

(** Whenever a reference is a list, the string the ROUGE scorer receives
    differs from the references' tokens joined by a space. *)
Lemma nested_reference_string_differs (target_ref : list Py.value) :
  existsb is_list target_ref = true ->
  Py.join " " (map Py.str target_ref) <> joined_reference_tokens target_ref.
Proof.
  intros Hlist Heq.
  pose proof (nested_reference_string_longer target_ref Hlist) as Hlt.
  rewrite Heq in Hlt. exact (Nat.lt_irrefl _ Hlt).
Qed.

(** *** Failures *)

(** An exception leaves [Evaluate_text] exactly when one of the two scorers
    raised it: the function raises nothing of its own and catches nothing. *)
Lemma Evaluate_text_raises_iff (pred target_ref : list Py.value) (w : world)
      (e : exn) :
  result (Evaluate_text pred target_ref) w = Raised e
  <-> get_scores Rouge (Py.join " " (map Py.str pred))
        (Py.join " " (map Py.str target_ref)) = Raised e
      \/ (exists rouge_score,
            get_scores Rouge (Py.join " " (map Py.str pred))
              (Py.join " " (map Py.str target_ref)) = Returned rouge_score
            /\ bleu_forward BLEUScore pred target_ref = Raised e).
Proof.
  rewrite Evaluate_text_outcome. unfold Evaluate_text_result.
  destruct (get_scores Rouge _ _) as [rouge_score | e1 | ].
  - destruct (bleu_forward BLEUScore pred target_ref) as [b | e2 | ].
    + split; [discriminate |].
      intros [H | [r [_ H]]]; discriminate.
    + split.
      * intros H. right. exists rouge_score. split; [reflexivity |].
        congruence.
      * intros [H | [r [_ H]]]; [discriminate | congruence].
    + split; [discriminate |].
      intros [H | [r [_ H]]]; discriminate.
  - split.
    + intros H. left. congruence.
    + intros [H | [r [H _]]]; [congruence | discriminate].
  - split; [discriminate |].
    intros [H | [r [H _]]]; discriminate.
Qed.

(** C9: the first event of a call is the ROUGE call, and no later event
    is one: the BLEU call and every write come after it.  When the ROUGE
    scorer raises, the call ends with that exception after this one event:
    no BLEU call, and standard output as it was. *)
Theorem C9_rouge_call_comes_first (pred target_ref : list Py.value)
        (w : world) :
  let str_pred := Py.join " " (map Py.str pred) in
  let str_target := Py.join " " (map Py.str target_ref) in
  (exists rest,
      produced (Evaluate_text pred target_ref) w
      = EvRouge str_pred str_target :: rest
      /\ forallb (fun e => negb (is_rouge e)) rest = true)
  /\ (forall e,
        get_scores Rouge str_pred str_target = Raised e ->
        result (Evaluate_text pred target_ref) w = Raised e
        /\ produced (Evaluate_text pred target_ref) w
           = [EvRouge str_pred str_target]
        /\ filter is_bleu (produced (Evaluate_text pred target_ref) w) = []
        /\ stdout (fst (Evaluate_text pred target_ref w)) = stdout w).
Proof.
  intros str_pred str_target. split.
  - apply Evaluate_text_first_event.
  - intros e Hraise.
    rewrite Evaluate_text_outcome, Evaluate_text_produced, Evaluate_text_run.
    unfold Evaluate_text_result, Evaluate_text_events.
    fold str_pred str_target. rewrite Hraise.
    repeat split. cbn [fst]. rewrite stdout_app. simpl.
    apply append_nil_r.
Qed.

(** *** Successful calls *)

(** C6: after a successful call, what the call wrote to standard output
    is two sections and nothing else: the BLEU section, its label and the
    score on one line, then the ROUGE section, its label on one line and the
    scores on the next. *)
Theorem C6_two_labelled_sections (pred target_ref : list Py.value)
        (w : world) (bleu_score : bleu_t) (rouge_score : rouge_t) :
  result (Evaluate_text pred target_ref) w
  = Returned (bleu_score, rouge_score) ->
  stdout (produced (Evaluate_text pred target_ref) w)
  = (bleu_section bleu_score ++ rouge_section rouge_score)%string
  /\ filter is_write (produced (Evaluate_text pred target_ref) w)
     = [EvWrite ("Bleu score : " ++ " " ++ str_bleu bleu_score
                 ++ Py.newline)%string;
        EvWrite ("Rouge score : " ++ Py.newline)%string;
        EvWrite (str_rouge rouge_score ++ Py.newline)%string].
Proof.
  rewrite Evaluate_text_outcome, Evaluate_text_produced.
  unfold Evaluate_text_result, Evaluate_text_events.
  destruct (get_scores Rouge _ _) as [r | e | ]; try discriminate.
  destruct (bleu_forward BLEUScore _ _) as [b | e | ]; try discriminate.
  intros H. injection H as -> ->. split; [| reflexivity].
  unfold bleu_section, rouge_section. cbn [stdout].
  rewrite append_nil_r, !append_assoc. reflexivity.
Qed.

(** C7: a successful call returns a pair: first what the BLEU scorer
    returned on the prediction and the reference collection, second what
    the ROUGE scorer returned on the two joined strings. *)
Theorem C7_returns_bleu_then_rouge (pred target_ref : list Py.value)
        (w : world) (v : bleu_t * rouge_t) :
  result (Evaluate_text pred target_ref) w = Returned v ->
  bleu_forward BLEUScore pred target_ref = Returned (fst v)
  /\ get_scores Rouge (Py.join " " (map Py.str pred))
       (Py.join " " (map Py.str target_ref)) = Returned (snd v).
Proof.
  rewrite Evaluate_text_outcome. unfold Evaluate_text_result.
  destruct (get_scores Rouge _ _) as [r | e | ]; try discriminate.
  destruct (bleu_forward BLEUScore _ _) as [b | e | ]; try discriminate.
  intros H. injection H as <-. split; reflexivity.
Qed.

(** *** The script as a whole *)

(** C8: the script adds to the trace the events of one call of
    [Evaluate_text] on the two literals and nothing else, among them one
    ROUGE call, on the literal prediction, and at most one BLEU call; and
    when that call terminates, the script terminates. *)
Theorem C8_script_is_one_call (w : world) :
  produced main w = produced (Evaluate_text preds target) w
  /\ filter is_rouge (produced main w)
     = [EvRouge "the cat is on the mat"
          "['there is a cat on the mat', 'a cat is on the mat']"]
  /\ length (filter is_bleu (produced main w)) <= 1
  /\ (terminates (result (Evaluate_text preds target) w) ->
      terminates (result main w)).
Proof.
  rewrite main_produced, main_outcome, Evaluate_text_produced,
    Evaluate_text_outcome.
  unfold Evaluate_text_events.
  change (Py.join " " (map Py.str preds)) with "the cat is on the mat"%string.
  change (Py.join " " (map Py.str target))
    with "['there is a cat on the mat', 'a cat is on the mat']"%string.
  split; [reflexivity |]. split; [| split].
  - destruct (get_scores Rouge _ _);
      [destruct (bleu_forward BLEUScore _ _) |..]; reflexivity.
  - destruct (get_scores Rouge _ _);
      [destruct (bleu_forward BLEUScore _ _) |..]; simpl; lia.
  - destruct (Evaluate_text_result preds target); intros H; exact H.
Qed.

End ScriptProperties.

(** ** The properties at the sample libraries *)

Lemma C6_two_labelled_sections_witness :
  result (L := Sample.libs) (Evaluate_text preds target) []
  = Returned (1, (21, 52))
  /\ stdout (produced (L := Sample.libs) (Evaluate_text preds target) [])
     = (bleu_section (L := Sample.libs) 1
        ++ rouge_section (L := Sample.libs) (21, 52))%string.
Proof.
  split; [reflexivity |].
  refine (proj1 (C6_two_labelled_sections (L := Sample.libs)
                   preds target [] 1 (21, 52) _)).
  reflexivity.
Defined.

Lemma C7_returns_bleu_then_rouge_witness :
  bleu_forward (Libraries := Sample.libs) BLEUScore preds target = Returned 1
  /\ get_scores (Libraries := Sample.libs) Rouge
       (Py.join " " (map Py.str preds)) (Py.join " " (map Py.str target))
     = Returned (21, 52).
Proof.
  refine (C7_returns_bleu_then_rouge (L := Sample.libs)
            preds target [] (1, (21, 52)) _).
  reflexivity.
Defined.

Lemma C8_script_is_one_call_witness :
  terminates (result (L := Sample.libs) (Evaluate_text preds target) [])
  /\ terminates (result (L := Sample.libs) main []).
Proof.
  split; [exact I |].
  refine (proj2 (proj2 (proj2
            (C8_script_is_one_call (L := Sample.libs) []))) _).
  exact I.
Defined.

Lemma C9_rouge_call_comes_first_witness :
  result (L := Sample.libs) (Evaluate_text [] target) []
  = Raised "Hypothesis is empty."%string
  /\ produced (L := Sample.libs) (Evaluate_text [] target) []
     = [EvRouge EmptyString
          "['there is a cat on the mat', 'a cat is on the mat']"].
Proof.
  pose proof (proj2 (C9_rouge_call_comes_first (L := Sample.libs)
                       [] target [])
                "Hypothesis is empty."%string eq_refl) as H.
  split; [exact (proj1 H) | exact (proj1 (proj2 H))].
Defined.

(** ** More on the strings of lines 7 and 8 *)

Section JoinedStrings.

Local Open Scope string_scope.

Lemma join_cons2 (sep x y : string) (rest : list string) :
  Py.join sep (x :: y :: rest) = x ++ sep ++ Py.join sep (y :: rest).
Proof. reflexivity. Qed.

Lemma append_space_not_empty (x rest : string) :
  x ++ " " ++ rest <> EmptyString.
Proof.
  destruct x; simpl; discriminate.
Qed.

(** Only the empty list and the list of the empty string join to the
    empty string. *)
Lemma join_empty_iff (xs : list string) :
  Py.join " " xs = EmptyString <-> xs = [] \/ xs = [EmptyString].
Proof.
  destruct xs as [| x [| y rest]].
  - simpl. split; [intros _; left; reflexivity | reflexivity].
  - simpl. split.
    + intros ->. right. reflexivity.
    + intros [H | H]; [discriminate | now injection H].
  - rewrite join_cons2. split.
    + intros H. exfalso. exact (append_space_not_empty _ _ H).
    + intros [H | H]; discriminate.
Qed.

Lemma str_empty_iff (v : Py.value) :
  Py.str v = EmptyString <-> v = Py.Str EmptyString.
Proof.
  destruct v as [s | items]; simpl.
  - split; [intros ->; reflexivity | intros H; now injection H].
  - split; discriminate.
Qed.

Lemma str_pred_empty_iff (pred : list Py.value) :
  Py.join " " (map Py.str pred) = EmptyString
  <-> pred = [] \/ pred = [Py.Str EmptyString].
Proof.
  rewrite join_empty_iff. split.
  - intros [H | H].
    + left. destruct pred; [reflexivity | discriminate].
    + right. destruct pred as [| v [| v' rest]]; try discriminate.
      simpl in H. injection H as H. apply str_empty_iff in H. now subst.
  - intros [-> | ->]; [left | right]; reflexivity.
Qed.

(** [str] of a list has its two brackets at least. *)
Lemma str_list_length (v : Py.value) :
  is_list v = true -> 2 <= String.length (Py.str v).
Proof.
  destruct v as [s | items]; [discriminate |]. intros _.
  cbn [Py.str Py.repr]. rewrite !length_append.
  change (String.length "[") with 1. change (String.length "]") with 1.
  lia.
Qed.

Lemma nested_reference_string_length (target_ref : list Py.value) :
  existsb is_list target_ref = true ->
  2 <= String.length (Py.join " " (map Py.str target_ref)).
Proof.
  intros Hlist.
  pose proof (join_length_ge_sum " " (map Py.str target_ref)) as Hsum.
  assert (Hone : 2 <= list_sum (map String.length (map Py.str target_ref))).
  { clear Hsum. induction target_ref as [| v vs IH]; [discriminate |].
    cbn [existsb] in Hlist. cbn [map]. 
    change (list_sum (String.length (Py.str v)
                      :: map String.length (map Py.str vs)))
      with (String.length (Py.str v)
            + list_sum (map String.length (map Py.str vs))).
    apply orb_true_iff in Hlist as [Hv | Hvs].
    - pose proof (str_list_length v Hv). lia.
    - pose proof (IH Hvs). lia. }
  lia.
Qed.

(** *** Splitting a joined string *)

Lemma contains_cons (c d : ascii) (s : string) :
  Py.contains c (String d s) = Ascii.eqb c d || Py.contains c s.
Proof. reflexivity. Qed.

Lemma words_space_free (x : string) :
  Py.contains " "%char x = false -> words x = [x].
Proof.
  induction x as [| c x IH]; [reflexivity |].
  rewrite contains_cons. intros H.
  apply orb_false_iff in H as [Hc Hx].
  cbn [words]. rewrite Ascii.eqb_sym, Hc, (IH Hx). reflexivity.
Qed.

Lemma words_append_space (x rest : string) :
  Py.contains " "%char x = false ->
  words (x ++ " " ++ rest) = x :: words rest.
Proof.
  induction x as [| c x IH]; [reflexivity |].
  rewrite contains_cons. intros H.
  apply orb_false_iff in H as [Hc Hx].
  cbn [append words]. rewrite Ascii.eqb_sym, Hc.
  change (x ++ String " " rest) with (x ++ " " ++ rest).
  rewrite (IH Hx). reflexivity.
Qed.

(** Splitting on spaces undoes joining with a space, for tokens that hold
    no space. *)
Lemma words_join (xs : list string) :
  xs <> [] ->
  forallb (fun x => negb (Py.contains " "%char x)) xs = true ->
  words (Py.join " " xs) = xs.
Proof.
  induction xs as [| x xs IH]; [intros H; now contradiction H |].
  intros _ Hfree. cbn [forallb] in Hfree.
  apply andb_true_iff in Hfree as [Hx Hxs].
  apply negb_true_iff in Hx.
  destruct xs as [| y rest].
  - simpl. apply words_space_free. exact Hx.
  - rewrite join_cons2, (words_append_space _ _ Hx).
    rewrite IH; [reflexivity | discriminate | exact Hxs].
Qed.

Lemma map_str_tokens (pred : list Py.value) :
  forallb space_free_token pred = true ->
  forallb (fun x => negb (Py.contains " "%char x)) (map Py.str pred) = true.
Proof.
  induction pred as [| v vs IH]; [reflexivity |].
  cbn [forallb map]. intros H. apply andb_true_iff in H as [Hv Hvs].
  rewrite (IH Hvs), andb_true_r.
  destruct v as [s | items]; [exact Hv | discriminate].
Qed.

Lemma map_str_injective (pred1 pred2 : list Py.value) :
  forallb space_free_token pred1 = true ->
  forallb space_free_token pred2 = true ->
  map Py.str pred1 = map Py.str pred2 ->
  pred1 = pred2.
Proof.
  revert pred2.
  induction pred1 as [| v vs IH]; intros [| v' vs'] H1 H2 Heq;
    try discriminate; [reflexivity |].
  cbn [forallb] in H1, H2.
  apply andb_true_iff in H1 as [Hv Hvs].
  apply andb_true_iff in H2 as [Hv' Hvs'].
  cbn [map] in Heq. injection Heq as Hhead Htail.
  destruct v as [s | items]; [| discriminate].
  destruct v' as [s' | items']; [| discriminate].
  simpl in Hhead. subst s'. f_equal. exact (IH vs' Hvs Hvs' Htail).
Qed.

(** *** The characters [repr] writes *)

Lemma all_chars_app (test : ascii -> bool) (s1 s2 : string) :
  all_chars test (s1 ++ s2) = all_chars test s1 && all_chars test s2.
Proof.
  induction s1 as [| c s1 IH]; simpl; [reflexivity |].
  rewrite IH. apply andb_assoc.
Qed.

Lemma repr_char_printable (quote c : ascii) :
  quote = Py.squote \/ quote = Py.dquote ->
  all_chars Py.isprintable (Py.repr_char quote c) = true.
Proof.
  intros [-> | ->];
    destruct c as [[] [] [] [] [] [] [] []]; reflexivity.
Qed.

Lemma repr_quote_cases (s : string) :
  Py.repr_quote s = Py.squote \/ Py.repr_quote s = Py.dquote.
Proof.
  unfold Py.repr_quote.
  destruct (Py.contains Py.squote s && negb (Py.contains Py.dquote s));
    [right | left]; reflexivity.
Qed.

Lemma repr_chars_printable (quote : ascii) (s : string) :
  quote = Py.squote \/ quote = Py.dquote ->
  all_chars Py.isprintable (Py.repr_chars quote s) = true.
Proof.
  intros Hq. induction s as [| c s IH]; [reflexivity |].
  cbn [Py.repr_chars]. rewrite all_chars_app, IH, andb_true_r.
  apply repr_char_printable. exact Hq.
Qed.

Lemma repr_str_printable (s : string) :
  all_chars Py.isprintable (Py.repr_str s) = true.
Proof.
  unfold Py.repr_str. cbn zeta.
  pose proof (repr_quote_cases s) as Hq.
  cbn [all_chars]. rewrite all_chars_app.
  rewrite (repr_chars_printable _ s Hq). cbn [all_chars].
  destruct Hq as [-> | ->]; reflexivity.
Qed.

Lemma join_printable (sep : string) (xs : list string) :
  all_chars Py.isprintable sep = true ->
  forallb (all_chars Py.isprintable) xs = true ->
  all_chars Py.isprintable (Py.join sep xs) = true.
Proof.
  intros Hsep. induction xs as [| x xs IH]; [reflexivity |].
  cbn [forallb]. intros H. apply andb_true_iff in H as [Hx Hxs].
  destruct xs as [| y rest]; [exact Hx |].
  rewrite join_cons2, !all_chars_app, Hx, Hsep, (IH Hxs). reflexivity.
Qed.

Lemma repr_printable (v : Py.value) :
  all_chars Py.isprintable (Py.repr v) = true.
Proof.
  revert v. fix IH 1. intros [s | items].
  - apply repr_str_printable.
  - cbn [Py.repr]. rewrite !all_chars_app.
    assert (Hitems : forallb (all_chars Py.isprintable) (map Py.repr items)
                     = true).
    { induction items as [| v items IHitems]; [reflexivity |].
      cbn [map forallb]. rewrite (IH v), IHitems. reflexivity. }
    rewrite (join_printable ", " _ eq_refl Hitems). reflexivity.
Qed.

End JoinedStrings.

(** ** Further properties of [Evaluate_text] *)

Section FurtherProperties.

Context {L : Libraries}.

(** X1: the reference string of the ROUGE call is the references' tokens
    joined by a space exactly when no element of the reference collection
    is a list, and the hypothesis string is the prediction's tokens joined
    by a space exactly when no element of the prediction is a list. *)
Theorem X1_joined_tokens_iff_no_list (pred target_ref : list Py.value)
        (w : world) :
  hd_error (produced (Evaluate_text pred target_ref) w)
  = Some (EvRouge (Py.join " " (map Py.str pred))
            (Py.join " " (map Py.str target_ref)))
  /\ (Py.join " " (map Py.str target_ref)
      = joined_reference_tokens target_ref
      <-> existsb is_list target_ref = false)
  /\ (Py.join " " (map Py.str pred) = Py.join " " (flat_map tokens pred)
      <-> existsb is_list pred = false).
Proof.
  split; [rewrite Evaluate_text_produced; reflexivity |].
  assert (Hiff : forall vs,
             Py.join " " (map Py.str vs) = joined_reference_tokens vs
             <-> existsb is_list vs = false).
  { intros vs. split.
    - intros Heq. destruct (existsb is_list vs) eqn:Hlist; [| reflexivity].
      exfalso. exact (nested_reference_string_differs vs Hlist Heq).
    - apply flat_reference_string. }
  split; [apply Hiff | apply (Hiff pred)].
Qed.

(** X2: the ROUGE scorer is called on the empty hypothesis exactly for the
    prediction with no token and for the prediction whose only token is the
    empty string. *)
Theorem X2_empty_hypothesis_iff (pred target_ref : list Py.value)
        (w : world) :
  (exists refs rest,
      produced (Evaluate_text pred target_ref) w
      = EvRouge EmptyString refs :: rest)
  <-> pred = [] \/ pred = [Py.Str EmptyString].
Proof.
  rewrite Evaluate_text_produced. unfold Evaluate_text_events.
  rewrite <- str_pred_empty_iff. split.
  - intros [refs [rest H]]. injection H as H _ _. exact H.
  - intros H. rewrite H. eexists. eexists. reflexivity.
Qed.

(** X3: the BLEU scorer is called when the ROUGE scorer has returned, and
    not otherwise; it is called once, on the prediction and the reference
    collection as the caller passed them. *)
Theorem X3_bleu_called_once_after_rouge (pred target_ref : list Py.value)
        (w : world) :
  filter is_bleu (produced (Evaluate_text pred target_ref) w)
  = match get_scores Rouge (Py.join " " (map Py.str pred))
            (Py.join " " (map Py.str target_ref)) with
    | Returned _ => [EvBleu pred target_ref]
    | _ => []
    end.
Proof.
  rewrite Evaluate_text_produced. unfold Evaluate_text_events.
  destruct (get_scores Rouge _ _); [| reflexivity | reflexivity].
  destruct (bleu_forward BLEUScore _ _); reflexivity.
Qed.

(** X4: the output is all or nothing: a call that returns has written
    its three lines, and a call that ends in any other way, whichever
    scorer failed, has written nothing. *)
Theorem X4_output_all_or_nothing (pred target_ref : list Py.value)
        (w : world) :
  match result (Evaluate_text pred target_ref) w with
  | Returned _ =>
      length (filter is_write (produced (Evaluate_text pred target_ref) w))
      = 3
  | _ =>
      filter is_write (produced (Evaluate_text pred target_ref) w) = []
      /\ stdout (fst (Evaluate_text pred target_ref w)) = stdout w
  end.
Proof.
  rewrite Evaluate_text_outcome, Evaluate_text_produced, Evaluate_text_run.
  unfold Evaluate_text_result, Evaluate_text_events. cbn [fst].
  rewrite stdout_app.
  destruct (get_scores Rouge _ _) as [r | e | ].
  - destruct (bleu_forward BLEUScore _ _) as [b | e | ];
      [reflexivity | |]; (split; [reflexivity | apply append_nil_r]).
  - split; [reflexivity | apply append_nil_r].
  - split; [reflexivity | apply append_nil_r].
Qed.

(** X5: when the reference collection holds a list, the reference string
    of the ROUGE call has two characters at least, also when every
    reference list is empty: it is never the empty string. *)
Theorem X5_nested_reference_not_empty (pred target_ref : list Py.value)
        (w : world) :
  existsb is_list target_ref = true ->
  exists refs rest,
    produced (Evaluate_text pred target_ref) w
    = EvRouge (Py.join " " (map Py.str pred)) refs :: rest
    /\ 2 <= String.length refs
    /\ refs <> EmptyString.
Proof.
  intros Hlist. rewrite Evaluate_text_produced. unfold Evaluate_text_events.
  eexists. eexists. split; [reflexivity |].
  pose proof (nested_reference_string_length target_ref Hlist) as Hlen.
  split; [exact Hlen |].
  intros Heq. rewrite Heq in Hlen. simpl in Hlen. lia.
Qed.

(** X6: two predictions with a token each at least, all tokens strings
    without a space, that reach the ROUGE scorer as the same hypothesis
    string are the same prediction. *)
Theorem X6_hypothesis_string_injective
        (pred1 pred2 target1 target2 : list Py.value) (w1 w2 : world)
        (hyps refs1 refs2 : string) (rest1 rest2 : list event) :
  forallb space_free_token pred1 = true ->
  forallb space_free_token pred2 = true ->
  pred1 <> [] ->
  pred2 <> [] ->
  produced (Evaluate_text pred1 target1) w1 = EvRouge hyps refs1 :: rest1 ->
  produced (Evaluate_text pred2 target2) w2 = EvRouge hyps refs2 :: rest2 ->
  pred1 = pred2.
Proof.
  intros Hfree1 Hfree2 Hne1 Hne2.
  rewrite !Evaluate_text_produced. unfold Evaluate_text_events.
  intros H1 H2. injection H1 as Hh1 _ _. injection H2 as Hh2 _ _.
  apply (map_str_injective _ _ Hfree1 Hfree2).
  rewrite <- (words_join (map Py.str pred1)),
    <- (words_join (map Py.str pred2)).
  - rewrite Hh1, Hh2. reflexivity.
  - destruct pred2; [now contradiction Hne2 | discriminate].
  - apply map_str_tokens. exact Hfree2.
  - destruct pred1; [now contradiction Hne1 | discriminate].
  - apply map_str_tokens. exact Hfree1.
Qed.

(** X7: when every reference of the collection is a list, the reference
    string of the ROUGE call holds printable characters only: a newline,
    a tab or another control character of a reference reaches the scorer
    as its escape. *)
Theorem X7_nested_reference_printable (pred target_ref : list Py.value)
        (w : world) :
  forallb is_list target_ref = true ->
  exists refs rest,
    produced (Evaluate_text pred target_ref) w
    = EvRouge (Py.join " " (map Py.str pred)) refs :: rest
    /\ all_chars Py.isprintable refs = true.
Proof.
  intros Hlists. rewrite Evaluate_text_produced. unfold Evaluate_text_events.
  eexists. eexists. split; [reflexivity |].
  apply join_printable; [reflexivity |].
  induction target_ref as [| v vs IH]; [reflexivity |].
  cbn [forallb] in Hlists. apply andb_true_iff in Hlists as [Hv Hvs].
  cbn [map forallb]. rewrite (IH Hvs), andb_true_r.
  destruct v as [s | items]; [discriminate |].
  apply (repr_printable (Py.List items)).
Qed.

End FurtherProperties.

(** ** The further properties at the sample libraries *)

Lemma X5_nested_reference_not_empty_witness :
  exists refs rest,
    produced (L := Sample.libs) (Evaluate_text preds [Py.List []]) []
    = EvRouge "the cat is on the mat" refs :: rest
    /\ 2 <= String.length refs
    /\ refs <> EmptyString.
Proof.
  apply (X5_nested_reference_not_empty (L := Sample.libs)
           preds [Py.List []] []).
  reflexivity.
Defined.

Lemma X6_hypothesis_string_injective_witness :
  produced (L := Sample.libs)
    (Evaluate_text [Py.Str "the"; Py.Str "cat"] target) []
  = [EvRouge "the cat"
       "['there is a cat on the mat', 'a cat is on the mat']";
     EvBleu [Py.Str "the"; Py.Str "cat"] target]
  /\ produced (L := Sample.libs)
       (Evaluate_text [Py.Str "the"; Py.Str "cat"] [])
       [EvWrite "earlier output"]
     = [EvRouge "the cat" EmptyString;
        EvBleu [Py.Str "the"; Py.Str "cat"] []]
  /\ [Py.Str "the"; Py.Str "cat"] = [Py.Str "the"; Py.Str "cat"].
Proof.
  split; [reflexivity |]. split; [reflexivity |].
  apply (X6_hypothesis_string_injective (L := Sample.libs)
           [Py.Str "the"; Py.Str "cat"] [Py.Str "the"; Py.Str "cat"]
           target [] [] [EvWrite "earlier output"]
           "the cat"
           "['there is a cat on the mat', 'a cat is on the mat']"
           EmptyString
           [EvBleu [Py.Str "the"; Py.Str "cat"] target]
           [EvBleu [Py.Str "the"; Py.Str "cat"] []]);
    try reflexivity; discriminate.
Defined.

Lemma X7_nested_reference_printable_witness :
  exists refs rest,
    produced (L := Sample.libs)
      (Evaluate_text preds
         [Py.List [Py.Str (String "a" (String (ascii_of_nat 10) "b"))]]) []
    = EvRouge "the cat is on the mat" refs :: rest
    /\ all_chars Py.isprintable refs = true.
Proof.
  apply (X7_nested_reference_printable (L := Sample.libs) preds
           [Py.List [Py.Str (String "a" (String (ascii_of_nat 10) "b"))]]
           []).
  reflexivity.
Defined.

(** ** The script with the ROUGE scorer of the specification *)

Section ScriptWithSpecRouge.

Variable E : Type.
Variables hypothesis_is_empty reference_is_empty : E.
Variables bleu_value bleu_object : Type.
Variable bleu_scorer : bleu_object.
Variable bleu_call :
  bleu_object -> list Py.value -> list Py.value -> outcome E bleu_value.
Variable show_bleu : bleu_value -> string.
Variable show_rouge : rouge_scores -> string.

Local Abbreviation spec_libraries :=
  (libraries_with_spec_rouge E hypothesis_is_empty reference_is_empty
     bleu_value bleu_object bleu_scorer bleu_call show_bleu show_rouge).

(** C2 (the code departs from the claim): for a prediction identical to
    its single reference, whatever the BLEU scorer, a call that returns
    returns ROUGE scores with precision 4/5, recall 2/3 and F1 8/11, below
    1: the scorer was handed the printed form of the list that holds the
    reference.  On the prediction and the reference text themselves the
    same scorer gives F1 1. *)
Theorem C2_identical_reference_f1_below_one (w : world) :
  let pred := [Py.Str "the cat is on the mat"] in
  let target_ref := [Py.List [Py.Str "the cat is on the mat"]] in
  exists scores : rouge_scores,
    result (L := spec_libraries) (Evaluate_text pred target_ref) w
    = match bleu_call bleu_scorer pred target_ref with
      | Returned bleu_score => Returned (bleu_score, scores)
      | Raised e => Raised e
      | Diverged => Diverged
      end
    /\ (precision (rouge_1 scores) == 4 # 5)%Q
    /\ (recall (rouge_1 scores) == 2 # 3)%Q
    /\ (f1 (rouge_1 scores) == 8 # 11)%Q
    /\ (f1 (rouge_1 scores) < 1)%Q
    /\ (f1 (unigram_scores "the cat is on the mat" "the cat is on the mat")
        == 1)%Q.
Proof.
  intros pred target_ref.
  exists {| rouge_1 := unigram_scores "the cat is on the mat"
                         "['the cat is on the mat']" |}.
  split.
  - rewrite Evaluate_text_outcome. unfold Evaluate_text_result.
    change (get_scores Rouge (Py.join " " (map Py.str pred))
              (Py.join " " (map Py.str target_ref)))
      with (spec_get_scores E hypothesis_is_empty reference_is_empty tt
              "the cat is on the mat" "['the cat is on the mat']").
    reflexivity.
  - cbn [rouge_1]. repeat split; vm_compute; reflexivity.
Qed.

(** C5: with an empty prediction (no token, or the empty string as only
    token), whatever the reference collection and the BLEU scorer, the call
    ends with the exception the ROUGE scorer raises on the empty
    hypothesis, after that one call and with nothing written; the
    exception is not caught, and a module that calls [Evaluate_text] as
    line 17 does ends with it too. *)
Theorem C5_empty_prediction_raises (pred target_ref : list Py.value)
        (w : world) :
  pred = [] \/ pred = [Py.Str EmptyString] ->
  Evaluate_text (L := spec_libraries) pred target_ref w
  = (w ++ [EvRouge EmptyString (Py.join " " (map Py.str target_ref))],
     Raised hypothesis_is_empty)
  /\ (Evaluate_text (L := spec_libraries) pred target_ref ;;; ret tt) w
     = (w ++ [EvRouge EmptyString (Py.join " " (map Py.str target_ref))],
        Raised hypothesis_is_empty)
  /\ stdout (fst (Evaluate_text (L := spec_libraries) pred target_ref w))
     = stdout w.
Proof.
  intros Hpred.
  assert (Hjoin : Py.join " " (map Py.str pred) = EmptyString)
    by (apply str_pred_empty_iff; exact Hpred).
  assert (Hrun : Evaluate_text (L := spec_libraries) pred target_ref w
                 = (w ++ [EvRouge EmptyString
                            (Py.join " " (map Py.str target_ref))],
                    Raised hypothesis_is_empty)).
  { rewrite Evaluate_text_run.
    unfold Evaluate_text_events, Evaluate_text_result.
    rewrite Hjoin. reflexivity. }
  split; [exact Hrun |]. split.
  - unfold bind. rewrite Hrun. reflexivity.
  - rewrite Hrun. cbn [fst]. rewrite stdout_app. apply append_nil_r.
Qed.

End ScriptWithSpecRouge.

(** ** These properties at the sample libraries *)

Lemma C5_empty_prediction_raises_witness :
  Evaluate_text (L := SampleWithSpecRouge.libs) [Py.Str EmptyString] target []
  = ([EvRouge EmptyString
        "['there is a cat on the mat', 'a cat is on the mat']"],
     Raised "Hypothesis is empty."%string).
Proof.
  refine (proj1 (C5_empty_prediction_raises string
                   "Hypothesis is empty."%string "Reference is empty."%string
                   nat unit tt Sample.sample_bleu_forward Sample.show_nat
                   SampleWithSpecRouge.show_scores
                   [Py.Str EmptyString] target [] _)).
  right. reflexivity.
Defined.
